(** * lvlog: a leveled wrapper around Go's standard [log] package

    A shallow embedding of [lvlog/log.go].  The package keeps its state in
    package-level variables, calls into [fmt], [log] (imported as [golog])
    and [os], and may end the process with [os.Exit].  The embedding threads
    a [World] (the package variables, the state of the standard logger and
    the writes issued so far) through a small monad whose outcomes are a
    normal return, a process exit, or a run-time panic. *)

From Stdlib Require Import ZArith List String Ascii Bool Lia.
Import ListNotations.

Local Open Scope Z_scope.
Local Open Scope string_scope.

(** ** Files, errors and the world *)

(** A [*os.File]: the process's standard error, a handle obtained from a
    successful open, or the nil pointer that a failed [os.OpenFile]
    returns. *)
Inductive File : Type :=
| Stderr
| Opened (name : string)
| NilFile.

(** A Go [error] value; [None] is [nil]. *)
Definition error : Type := option string.

Record World : Type := mkWorld {
  level : Z;                      (* var level *)
  logFile : File;                 (* var logFile *)
  levelString : string;           (* var levelString, bound to -log-level *)
  filename : string;              (* var filename, bound to -log-file *)
  std_out : File;                 (* golog: output of the standard logger *)
  std_flags : Z;                  (* golog: flags of the standard logger *)
  now : nat;                      (* clock reading used for the next header *)
  fmtWork : nat;                  (* ghost: calls made into package fmt *)
  written : list (File * string)  (* Write calls issued, oldest first *)
}.

(** ** Outcomes and the process monad *)

Inductive Outcome (A : Type) : Type :=
| Ret (a : A) (w : World)
| Exit (code : Z) (w : World)
| Panic (w : World).

Arguments Ret {A} a w.
Arguments Exit {A} code w.
Arguments Panic {A} w.

Definition Proc (A : Type) : Type := World -> Outcome A.

Definition ret {A : Type} (a : A) : Proc A := fun w => Ret a w.

Definition bind {A B : Type} (m : Proc A) (k : A -> Proc B) : Proc B :=
  fun w =>
    match m w with
    | Ret a w' => k a w'
    | Exit c w' => Exit c w'
    | Panic w' => Panic w'
    end.

Notation "x <- m ;; k" := (bind m (fun x => k))
  (at level 61, m at next level, right associativity).
Notation "m ;; k" := (bind m (fun _ => k))
  (at level 61, right associativity).

(** The world in which an outcome leaves the process. *)
Definition final {A : Type} (o : Outcome A) : World :=
  match o with
  | Ret _ w => w
  | Exit _ w => w
  | Panic w => w
  end.

Definition get {A : Type} (field : World -> A) : Proc A :=
  fun w => Ret (field w) w.

Definition set_level (l : Z) : Proc unit :=
  fun w => Ret tt (mkWorld l (logFile w) (levelString w) (filename w)
                     (std_out w) (std_flags w) (now w) (fmtWork w) (written w)).

Definition set_logFile (f : File) : Proc unit :=
  fun w => Ret tt (mkWorld (level w) f (levelString w) (filename w)
                     (std_out w) (std_flags w) (now w) (fmtWork w) (written w)).

Definition set_args (ls fn : string) : Proc unit :=
  fun w => Ret tt (mkWorld (level w) (logFile w) ls fn
                     (std_out w) (std_flags w) (now w) (fmtWork w) (written w)).

(** One more call into package [fmt]. *)
Definition fmt_tick : Proc unit :=
  fun w => Ret tt (mkWorld (level w) (logFile w) (levelString w) (filename w)
                     (std_out w) (std_flags w) (now w) (S (fmtWork w)) (written w)).

(** [f.Write(data)]: the write is issued on the handle; its result is
    dropped by every caller in this package. *)
Definition file_Write (f : File) (data : string) : Proc unit :=
  fun w => Ret tt (mkWorld (level w) (logFile w) (levelString w) (filename w)
                     (std_out w) (std_flags w) (now w) (fmtWork w)
                     (written w ++ [(f, data)])%list).

Definition clock_tick : Proc unit :=
  fun w => Ret tt (mkWorld (level w) (logFile w) (levelString w) (filename w)
                     (std_out w) (std_flags w) (S (now w)) (fmtWork w) (written w)).

(** ** Package os *)

Definition os_Stderr : File := Stderr.

Definition os_Exit {A : Type} (code : Z) : Proc A := fun w => Exit code w.

(** ** Package log (golog): the standard logger *)

Definition Ldate : Z := 1.
Definition Ltime : Z := 2.
Definition Lshortfile : Z := 16.
Definition LstdFlags : Z := Z.lor Ldate Ltime.

Definition golog_SetOutput (f : File) : Proc unit :=
  fun w => Ret tt (mkWorld (level w) (logFile w) (levelString w) (filename w)
                     f (std_flags w) (now w) (fmtWork w) (written w)).

Definition golog_SetFlags (flags : Z) : Proc unit :=
  fun w => Ret tt (mkWorld (level w) (logFile w) (levelString w) (filename w)
                     (std_out w) flags (now w) (fmtWork w) (written w)).

Definition newline : string := String "010"%char EmptyString.

(** [len(s) == 0 || s[len(s)-1] != '\n'] in [Logger.Output]. *)
Fixpoint ends_with_newline (s : string) : bool :=
  match s with
  | EmptyString => false
  | String c rest =>
      match rest with
      | EmptyString => Ascii.eqb c "010"%char
      | String _ _ => ends_with_newline rest
      end
  end.

Definition line_end (s : string) : string :=
  if ends_with_newline s then "" else newline.

(** ** The lvlog package constants *)

Definition LevelDebug : Z := 0.
Definition LevelInfo : Z := 1.
Definition LevelWarning : Z := 2.
Definition LevelError : Z := 3.

Definition levelPrefix : list string :=
  ["[DEBUG] "; "[INFO] "; "[WARNING] "; "[ERROR] "].

(** [levelPrefix[l]]: indexing the array outside its bounds panics. *)
Definition levelPrefix_at (l : Z) : Proc string :=
  if ((0 <=? l) && (l <? Z.of_nat (List.length levelPrefix)))%Z
  then ret (nth (Z.to_nat l) levelPrefix "")
  else fun w => Panic w.

(** The state of the package when the program starts: the initial values of
    the package variables and of the standard logger ([os.Stderr],
    [LstdFlags]). *)
Definition init_world (t0 : nat) : World :=
  mkWorld LevelInfo os_Stderr "INFO" "" os_Stderr LstdFlags t0 0%nat [].

(** ** The host: values, formatting verbs, log headers, the file system *)

(** A value passed as [interface{}]: a string, or a value of some other
    dynamic type. *)
Inductive any (Other : Type) : Type :=
| VString (s : string)
| VOther (x : Other).

Arguments VString {Other} s.
Arguments VOther {Other} x.

Class Host : Type := {
  (** values of dynamic type other than [string], and their default
      ([%v]) rendering *)
  Other : Type;
  printOther : Other -> string;
  (** what [fmt] produces from the first [%] of a format on (and, at the
      end of the format, for arguments left over) *)
  fmtDirectives : string -> list (any Other) -> string;
  (** the header the standard logger builds from the time, its flags and
      the call site *)
  formatHeader : nat -> Z -> string -> Z -> string;
  (** the file system's answer to opening a path read-write without
      create: [None] when the open succeeds, the error otherwise *)
  openErr : string -> option string;
  (** the compiler's choice where the language leaves the order open:
      whether, among the operands of one call, a function call is
      evaluated before an index expression written to its left *)
  callsFirst : bool
}.

Definition value `{Host} : Type := any Other.

Section Lvlog.

Context `{Host}.

(** *** Package fmt *)

Definition isString (a : value) : bool :=
  match a with
  | VString _ => true
  | VOther _ => false
  end.

Definition printArg (a : value) : string :=
  match a with
  | VString s => s
  | VOther x => printOther x
  end.

(** [pp.doPrint]: a space goes between two operands when neither is a
    string. *)
Fixpoint doPrint (argNum : nat) (prevString : bool) (a : list value) : string :=
  match a with
  | [] => ""
  | arg :: rest =>
      (if (0 <? argNum)%nat && negb (isString arg) && negb prevString
       then " " else "")
      ++ printArg arg ++ doPrint (S argNum) (isString arg) rest
  end.

(** [pp.doPrintf]: bytes up to the first [%] are copied as they are. *)
Fixpoint doPrintf (format : string) (a : list value) : string :=
  match format with
  | EmptyString => fmtDirectives EmptyString a
  | String c rest =>
      if Ascii.eqb c "%"%char then fmtDirectives format a
      else String c (doPrintf rest a)
  end.

Definition fmt_Sprint (a : list value) : Proc string :=
  fmt_tick ;; ret (doPrint 0 false a).

Definition fmt_Sprintf (format : string) (a : list value) : Proc string :=
  fmt_tick ;; ret (doPrintf format a).

(** [fmt.Fprintln(f, s)] with a single string operand. *)
Definition fmt_Fprintln (f : File) (s : string) : Proc unit :=
  fmt_tick ;; file_Write f (s ++ newline).

(** *** Package os: opening a file *)

Definition os_OpenFile (name : string) : Proc (File * error) :=
  match openErr name with
  | Some e => ret (NilFile, Some e)
  | None => ret (Opened name, None)
  end.

(** *** Package log: output through the standard logger *)

(** [std.Output(2, s)]; [site] is the file and line of the caller of
    [golog.Print]/[golog.Printf], which [Lshortfile] reports. *)
Definition golog_Output (site : string * Z) (s : string) : Proc unit :=
  t <- get now ;;
  flags <- get std_flags ;;
  out <- get std_out ;;
  clock_tick ;;
  file_Write out (formatHeader t flags (fst site) (snd site) ++ s ++ line_end s).

Definition golog_Printf (site : string * Z) (format : string) (v : list value)
  : Proc unit :=
  s <- fmt_Sprintf format v ;; golog_Output site s.

Definition golog_Print (site : string * Z) (v : list value) : Proc unit :=
  s <- fmt_Sprint v ;; golog_Output site s.

(** *** lvlog *)

Definition setFileName (name : string) : Proc error :=
  err <- (if (0 <? String.length name)%nat
          then r <- os_OpenFile name ;;
               set_logFile (fst r) ;;
               ret (snd r)
          else ret None) ;;
  f <- get logFile ;;
  golog_SetOutput f ;;
  golog_SetFlags (Z.lor LstdFlags Lshortfile) ;;
  ret err.

Definition InitFromArgs : Proc unit :=
  ls <- get levelString ;;
  (if ls =? "DEBUG" then set_level LevelDebug
   else if ls =? "INFO" then set_level LevelInfo
   else if ls =? "WARNING" then set_level LevelWarning
   else if ls =? "ERROR" then set_level LevelError
   else fmt_Fprintln os_Stderr
          "log-level can only be DEBUG, INFO, WARNING, ERROR" ;;
        os_Exit 1) ;;
  fn <- get filename ;;
  setFileName fn ;;
  ret tt.

Definition InitLevelAndFile (l : Z) (p : string) : Proc error :=
  if ((l <=? LevelError) && (l >=? LevelDebug))%Z
  then set_level l ;; setFileName p
  else ret (Some "wrong level number").

Definition outputf (l : Z) (format : string) (v : list value) : Proc unit :=
  cur <- get level ;;
  if (l >=? cur)%Z
  then p <- levelPrefix_at l ;;
       f <- fmt_Sprint [VString p; VString format] ;;
       golog_Printf ("log.go", 87) f v
  else ret tt.

(** In [golog.Print(levelPrefix[l], fmt.Sprint(v...))] the index and the
    call to [fmt.Sprint] are operands of the same call: which of the two is
    evaluated first is the compiler's choice. *)
Definition output (l : Z) (v : list value) : Proc unit :=
  cur <- get level ;;
  if (l >=? cur)%Z
  then if callsFirst
       then s <- fmt_Sprint v ;;
            p <- levelPrefix_at l ;;
            golog_Print ("log.go", 93) [VString p; VString s]
       else p <- levelPrefix_at l ;;
            s <- fmt_Sprint v ;;
            golog_Print ("log.go", 93) [VString p; VString s]
  else ret tt.

Definition Fatalf (format : string) (v : list value) : Proc unit :=
  outputf LevelError format v ;; os_Exit 1.

Definition Fatal (v : list value) : Proc unit :=
  output LevelError v ;; os_Exit 1.

Definition Errorf (format : string) (v : list value) : Proc unit :=
  outputf LevelError format v.

Definition Error (v : list value) : Proc unit :=
  output LevelError v.

Definition Warningf (format : string) (v : list value) : Proc unit :=
  outputf LevelWarning format v.

Definition Warning (v : list value) : Proc unit :=
  output LevelWarning v.

Definition Infof (format : string) (v : list value) : Proc unit :=
  outputf LevelInfo format v.

Definition Info (v : list value) : Proc unit :=
  output LevelInfo v.

Definition Debugf (format : string) (v : list value) : Proc unit :=
  outputf LevelDebug format v.

Definition Debug (v : list value) : Proc unit :=
  output LevelDebug v.

End Lvlog.

(** ** Callers *)

Section Callers.

Context `{Host}.

(** The four severities at which the eight write functions log. *)
Inductive WriteFn : Type := FDebug | FInfo | FWarning | FError.

Definition severity (f : WriteFn) : Z :=
  match f with
  | FDebug => LevelDebug
  | FInfo => LevelInfo
  | FWarning => LevelWarning
  | FError => LevelError
  end.

(** The concatenation form of each severity: [Debug], [Info], [Warning],
    [Error]. *)
Definition Print (f : WriteFn) (v : list value) : Proc unit :=
  match f with
  | FDebug => Debug v
  | FInfo => Info v
  | FWarning => Warning v
  | FError => Error v
  end.

(** The formatted form of each severity: [Debugf], [Infof], [Warningf],
    [Errorf]. *)
Definition Printf (f : WriteFn) (format : string) (v : list value) : Proc unit :=
  match f with
  | FDebug => Debugf format v
  | FInfo => Infof format v
  | FWarning => Warningf format v
  | FError => Errorf format v
  end.

(** What reaches the package from a client: the two variables that [init]
    registers as flags are assigned by a command-line parse that succeeded
    ([CFlagParse]; a parse that fails ends the process inside package
    [flag] and is not modelled), or one of the exported functions is
    called. *)
Inductive Call : Type :=
| CFlagParse (ls fn : string)
| CInitFromArgs
| CInitLevelAndFile (l : Z) (p : string)
| CPrint (f : WriteFn) (v : list value)
| CPrintf (f : WriteFn) (format : string) (v : list value)
| CFatal (v : list value)
| CFatalf (format : string) (v : list value).

Definition invoke (c : Call) : Proc unit :=
  match c with
  | CFlagParse ls fn => set_args ls fn
  | CInitFromArgs => InitFromArgs
  | CInitLevelAndFile l p => InitLevelAndFile l p ;; ret tt
  | CPrint f v => Print f v
  | CPrintf f format v => Printf f format v
  | CFatal v => Fatal v
  | CFatalf format v => Fatalf format v
  end.

(** A client program: a sequence of calls, cut short by an exit or a
    panic. *)
Fixpoint run (cs : list Call) : Proc unit :=
  match cs with
  | [] => ret tt
  | c :: rest => invoke c ;; run rest
  end.

Definition is_init (c : Call) : bool :=
  match c with
  | CInitFromArgs | CInitLevelAndFile _ _ => true
  | _ => false
  end.

End Callers.

(** ** Vocabulary of the statements *)

(** The threshold is one of the four defined severities. *)
Definition valid_level (w : World) : Prop :=
  LevelDebug <= level w <= LevelError.

(** A level name accepted by [InitFromArgs]. *)
Definition level_of_name (s : string) : option Z :=
  if s =? "DEBUG" then Some LevelDebug
  else if s =? "INFO" then Some LevelInfo
  else if s =? "WARNING" then Some LevelWarning
  else if s =? "ERROR" then Some LevelError
  else None.

(** The world after the standard logger wrote [line], [k] calls into
    [fmt] having been made on the way. *)
Definition logged (k : nat) (line : string) (w : World) : World :=
  mkWorld (level w) (logFile w) (levelString w) (filename w)
    (std_out w) (std_flags w) (S (now w)) (k + fmtWork w)
    (written w ++ [(std_out w, line)])%list.

(** Started in [w], the call returned normally having issued exactly one
    more write, of [line], on the logger's output. *)
Definition emits (w : World) (line : string) (o : Outcome unit) : Prop :=
  exists w', o = Ret tt w' /\ written w' = (written w ++ [(std_out w, line)])%list.

Definition emits_a_line (w : World) (o : Outcome unit) : Prop :=
  exists line, emits w line o.

(** The world after the destination-binding step chose [f]. *)
Definition bound (l : Z) (f : File) (w : World) : World :=
  mkWorld l f (levelString w) (filename w) f (Z.lor LstdFlags Lshortfile)
    (now w) (fmtWork w) (written w).

(** The entry of [levelPrefix] for severity [l]. *)
Definition tag (l : Z) : string := nth (Z.to_nat l) levelPrefix "".

(** What [Logger.Output] hands to the writer for the message [s] logged
    from [site] in world [w]. *)
Definition log_line `{Host} (w : World) (site : string * Z) (s : string) : string :=
  formatHeader (now w) (std_flags w) (fst site) (snd site) ++ s ++ line_end s.

(** A string in which no formatting verb starts. *)
Fixpoint literal (s : string) : bool :=
  match s with
  | EmptyString => true
  | String c rest => negb (Ascii.eqb c "%"%char) && literal rest
  end.

(** The state in which no initialization has taken effect. *)
Definition defaults (w : World) : Prop :=
  level w = LevelInfo /\ logFile w = Stderr /\ std_out w = Stderr.

(** ** A concrete host, for running the model *)

Definition demo_host : Host := {|
  Other := Z;
  printOther := fun _ => "<value>";
  fmtDirectives := fun rest _ => rest;
  formatHeader := fun _ _ file _ => "2009/11/10 23:00:00 " ++ file ++ ": ";
  openErr := fun name =>
    if name =? "app.log" then None
    else Some "open: no such file or directory";
  callsFirst := true
|}.

(** The initial world after the host parsed [-log-level BOGUS]. *)
Definition demo_bogus_world : World :=
  mkWorld LevelInfo Stderr "BOGUS" "" Stderr LstdFlags 0 0 [].

(** The initial world after the host parsed
    [-log-level ERROR -log-file missing.log]. *)
Definition demo_missing_world : World :=
  mkWorld LevelInfo Stderr "ERROR" "missing.log" Stderr LstdFlags 0 0 [].

(** A client that parses its flags and logs, without initializing. *)
Definition demo_calls : list (@Call demo_host) :=
  [CFlagParse "DEBUG" ""; CPrint FInfo [VString "started"]].

Definition demo_calls_world : World :=
  final (@run demo_host demo_calls (init_world 0)).

(** ** Vocabulary of the further statements *)

(** What the destination-binding step decides for the path [name] when the
    current file is [cur]: the file it binds and the error it returns. *)
Definition binding `{Host} (name : string) (cur : File) : File * error :=
  if (0 <? String.length name)%nat
  then match openErr name with
       | Some e => (NilFile, Some e)
       | None => (Opened name, None)
       end
  else (cur, None).

(** The ten logging calls. *)
Definition is_write `{Host} (c : Call) : bool :=
  match c with
  | CPrint _ _ | CPrintf _ _ _ | CFatal _ | CFatalf _ _ => true
  | _ => false
  end.

(** The calls into the package itself: every exported function. *)
Definition is_exported `{Host} (c : Call) : bool :=
  match c with
  | CFlagParse _ _ => false
  | _ => true
  end.

(** The calls whose code contains [os.Exit]. *)
Definition may_exit `{Host} (c : Call) : bool :=
  match c with
  | CInitFromArgs | CFatal _ | CFatalf _ _ => true
  | _ => false
  end.

(** The logger writes where [logFile] points, with the flags of the
    standard library or those of the binding step, and [logFile] is
    standard error, nil, or a file whose open succeeded. *)
Definition consistent `{Host} (w : World) : Prop :=
  std_out w = logFile w /\
  (std_flags w = LstdFlags \/ std_flags w = Z.lor LstdFlags Lshortfile) /\
  match logFile w with
  | Stderr => True
  | NilFile => True
  | Opened p => p <> "" /\ openErr p = None
  end.

(** The settings of a world: everything but the clock, the count of fmt
    calls and the writes. *)
Definition settings (w : World) : Z * File * string * string * File * Z :=
  (level w, logFile w, levelString w, filename w, std_out w, std_flags w).

(** ** Facts about strings and package fmt *)

Lemma append_empty_r (s : string) : s ++ "" = s.
Proof.
  induction s as [|c s IH]; simpl; [reflexivity | now rewrite IH].
Qed.

Lemma append_assoc3 (a b c : string) : (a ++ b) ++ c = a ++ b ++ c.
Proof.
  induction a as [|x a IH]; simpl; [reflexivity | now rewrite IH].
Qed.

(** Bounds on levels, once the constants are unfolded. *)
Ltac level_arith :=
  unfold valid_level, init_world, LevelDebug, LevelInfo, LevelWarning,
    LevelError in *;
  cbn [level] in *; lia.

Section Facts.

Context `{Host}.

Lemma doPrint_two_strings (p s : string) :
  doPrint 0 false [VString p; VString s] = p ++ s.
Proof.
  simpl. now rewrite append_empty_r.
Qed.

Lemma doPrintf_literal (lit format : string) (v : list value) :
  literal lit = true -> doPrintf (lit ++ format) v = lit ++ doPrintf format v.
Proof.
  induction lit as [|c lit IH]; simpl; intros Hlit.
  - reflexivity.
  - apply andb_true_iff in Hlit as [Hc Hrest].
    apply negb_true_iff in Hc. rewrite Hc. now rewrite IH.
Qed.

Lemma tag_literal (l : Z) : literal (tag l) = true.
Proof.
  unfold tag.
  destruct (Z.to_nat l) as [|[|[|[|n]]]]; try reflexivity.
  destruct n; reflexivity.
Qed.

Lemma levelPrefix_at_valid (l : Z) (w : World) :
  LevelDebug <= l <= LevelError -> levelPrefix_at l w = Ret (tag l) w.
Proof.
  unfold LevelDebug, LevelError, levelPrefix_at. intros Hl.
  replace (0 <=? l)%Z with true by (symmetry; apply Z.leb_le; lia).
  replace (l <? Z.of_nat (List.length levelPrefix))%Z with true
    by (symmetry; apply Z.ltb_lt; simpl; lia).
  reflexivity.
Qed.

(** ** The two output routines *)

Lemma output_eq (l : Z) (v : list value) (w : World) :
  LevelDebug <= l <= LevelError ->
  output l v w =
    if (l >=? level w)%Z
    then Ret tt (logged 2 (log_line w ("log.go", 93) (tag l ++ doPrint 0 false v)) w)
    else Ret tt w.
Proof.
  intros Hl. unfold output, bind at 1. unfold get at 1.
  destruct (l >=? level w)%Z; [|reflexivity].
  destruct callsFirst.
  - unfold fmt_Sprint. unfold bind at 1 2. unfold fmt_tick at 1.
    unfold ret at 1. unfold bind at 1.
    rewrite (levelPrefix_at_valid l _ Hl).
    unfold golog_Print, fmt_Sprint, golog_Output, bind, get, ret, fmt_tick,
      clock_tick, file_Write, logged, log_line.
    cbn [level logFile levelString filename std_out std_flags now fmtWork
         written fst snd Nat.add].
    now rewrite doPrint_two_strings.
  - unfold bind at 1. rewrite (levelPrefix_at_valid l w Hl).
    unfold golog_Print, fmt_Sprint, golog_Output, bind, get, ret, fmt_tick,
      clock_tick, file_Write, logged, log_line.
    cbn [level logFile levelString filename std_out std_flags now fmtWork
         written fst snd Nat.add].
    now rewrite doPrint_two_strings.
Qed.

Lemma outputf_eq (l : Z) (format : string) (v : list value) (w : World) :
  LevelDebug <= l <= LevelError ->
  outputf l format v w =
    if (l >=? level w)%Z
    then Ret tt (logged 2 (log_line w ("log.go", 87) (tag l ++ doPrintf format v)) w)
    else Ret tt w.
Proof.
  intros Hl. unfold outputf, bind at 1. unfold get at 1.
  destruct (l >=? level w)%Z; [|reflexivity].
  unfold bind at 1. rewrite (levelPrefix_at_valid l w Hl).
  unfold golog_Printf, fmt_Sprint, fmt_Sprintf, golog_Output, bind, get, ret,
    fmt_tick, clock_tick, file_Write, logged, log_line.
  cbn [level logFile levelString filename std_out std_flags now fmtWork written
       fst snd Nat.add].
  rewrite doPrint_two_strings.
  now rewrite (doPrintf_literal (tag l) format v (tag_literal l)).
Qed.

Lemma severity_valid (f : WriteFn) : LevelDebug <= severity f <= LevelError.
Proof.
  destruct f; unfold severity, LevelDebug, LevelInfo, LevelWarning, LevelError; lia.
Qed.

Lemma Print_eq (f : WriteFn) (v : list value) (w : World) :
  Print f v w = output (severity f) v w.
Proof. destruct f; reflexivity. Qed.

Lemma Printf_eq (f : WriteFn) (format : string) (v : list value) (w : World) :
  Printf f format v w = outputf (severity f) format v w.
Proof. destruct f; reflexivity. Qed.

Lemma emits_logged (k : nat) (line : string) (w : World) :
  emits w line (Ret tt (logged k line w)).
Proof. exists (logged k line w). split; reflexivity. Qed.

Lemma not_emits_unchanged (line : string) (w : World) :
  ~ emits w line (Ret tt w).
Proof.
  intros [w' [Heq Hw]]. injection Heq as <-.
  apply (f_equal (@List.length _)) in Hw.
  rewrite length_app in Hw. simpl in Hw. lia.
Qed.

(** ** The destination-binding step and the two initializations *)

Lemma nonempty_length (name : string) :
  name <> "" -> (0 <? String.length name)%nat = true.
Proof.
  destruct name as [|c rest]; [congruence | reflexivity].
Qed.

Lemma setFileName_empty (w : World) :
  setFileName "" w = Ret None (bound (level w) (logFile w) w).
Proof. reflexivity. Qed.

Lemma setFileName_open_fails (name e : string) (w : World) :
  name <> "" -> openErr name = Some e ->
  setFileName name w = Ret (Some e) (bound (level w) NilFile w).
Proof.
  intros Hne Hopen. unfold setFileName, os_OpenFile.
  rewrite (nonempty_length name Hne), Hopen. reflexivity.
Qed.

Lemma setFileName_open_ok (name : string) (w : World) :
  name <> "" -> openErr name = None ->
  setFileName name w = Ret None (bound (level w) (Opened name) w).
Proof.
  intros Hne Hopen. unfold setFileName, os_OpenFile.
  rewrite (nonempty_length name Hne), Hopen. reflexivity.
Qed.

Lemma setFileName_cases (name : string) (w : World) :
  exists err f, setFileName name w = Ret err (bound (level w) f w).
Proof.
  destruct name as [|c rest].
  - exists None, (logFile w). apply setFileName_empty.
  - destruct (openErr (String c rest)) as [e|] eqn:Hopen.
    + exists (Some e), NilFile. now apply setFileName_open_fails.
    + exists None, (Opened (String c rest)). now apply setFileName_open_ok.
Qed.

Lemma level_check (l : Z) :
  ((l <=? LevelError) && (l >=? LevelDebug))%Z = true <->
  LevelDebug <= l <= LevelError.
Proof.
  rewrite andb_true_iff, Z.leb_le, Z.geb_leb, Z.leb_le. lia.
Qed.

Lemma InitLevelAndFile_valid (l : Z) (p : string) (w : World) :
  LevelDebug <= l <= LevelError ->
  InitLevelAndFile l p w = setFileName p (final (set_level l w)).
Proof.
  intros Hl. unfold InitLevelAndFile.
  apply level_check in Hl. rewrite Hl. reflexivity.
Qed.

Lemma InitLevelAndFile_invalid (l : Z) (p : string) (w : World) :
  ~ (LevelDebug <= l <= LevelError) ->
  InitLevelAndFile l p w = Ret (Some "wrong level number") w.
Proof.
  intros Hl. unfold InitLevelAndFile.
  destruct ((l <=? LevelError) && (l >=? LevelDebug))%Z eqn:Hc; [|reflexivity].
  apply level_check in Hc. contradiction.
Qed.

Lemma level_of_name_valid (s : string) (n : Z) :
  level_of_name s = Some n -> LevelDebug <= n <= LevelError.
Proof.
  unfold level_of_name, LevelDebug, LevelInfo, LevelWarning, LevelError.
  repeat match goal with
         | |- context [(?a =? ?b)%string] => destruct (a =? b)%string
         end; intros Heq; inversion Heq; lia.
Qed.

Lemma level_of_name_none (s : string) :
  s <> "DEBUG" -> s <> "INFO" -> s <> "WARNING" -> s <> "ERROR" ->
  level_of_name s = None.
Proof.
  intros H1 H2 H3 H4. unfold level_of_name.
  apply String.eqb_neq in H1, H2, H3, H4.
  now rewrite H1, H2, H3, H4.
Qed.

Lemma InitFromArgs_valid (w : World) (n : Z) :
  level_of_name (levelString w) = Some n ->
  InitFromArgs w = (setFileName (filename w) ;; ret tt) (final (set_level n w)).
Proof.
  unfold level_of_name, InitFromArgs. unfold bind at 1. unfold get at 1.
  repeat match goal with
         | |- context [(?a =? ?b)%string] => destruct (a =? b)%string
         end; intros Heq; inversion Heq; reflexivity.
Qed.

(** The world in which an unrecognised level name leaves the process. *)
Lemma InitFromArgs_invalid (w : World) :
  level_of_name (levelString w) = None ->
  InitFromArgs w =
    Exit 1 (final (fmt_Fprintln os_Stderr
                     "log-level can only be DEBUG, INFO, WARNING, ERROR" w)).
Proof.
  unfold level_of_name, InitFromArgs. unfold bind at 1. unfold get at 1.
  repeat match goal with
         | |- context [(?a =? ?b)%string] => destruct (a =? b)%string
         end; intros Heq; try discriminate Heq; reflexivity.
Qed.

Lemma Fatal_exits (v : list value) (w : World) :
  exists w', Fatal v w = Exit 1 w' /\ level w' = level w.
Proof.
  assert (HE : LevelDebug <= LevelError <= LevelError)
    by (unfold LevelDebug, LevelError; lia).
  unfold Fatal, bind. rewrite (output_eq LevelError v w HE).
  destruct (LevelError >=? level w)%Z; eexists; split; reflexivity.
Qed.

Lemma Fatalf_exits (format : string) (v : list value) (w : World) :
  exists w', Fatalf format v w = Exit 1 w' /\ level w' = level w.
Proof.
  assert (HE : LevelDebug <= LevelError <= LevelError)
    by (unfold LevelDebug, LevelError; lia).
  unfold Fatalf, bind. rewrite (outputf_eq LevelError format v w HE).
  destruct (LevelError >=? level w)%Z; eexists; split; reflexivity.
Qed.

Lemma Print_cases (f : WriteFn) (v : list value) (w : World) :
  Print f v w = Ret tt w \/ exists line, Print f v w = Ret tt (logged 2 line w).
Proof.
  rewrite Print_eq, (output_eq _ v w (severity_valid f)).
  destruct (severity f >=? level w)%Z; [right; eexists; reflexivity | now left].
Qed.

Lemma Printf_cases (f : WriteFn) (format : string) (v : list value) (w : World) :
  Printf f format v w = Ret tt w \/
  exists line, Printf f format v w = Ret tt (logged 2 line w).
Proof.
  rewrite Printf_eq, (outputf_eq _ format v w (severity_valid f)).
  destruct (severity f >=? level w)%Z; [right; eexists; reflexivity | now left].
Qed.

(** ** The level gate *)

(** C1. A write at severity S (Debug/Debugf, Info/Infof, Warning/Warningf,
    Error/Errorf) under threshold T hands a line to the logger's output
    exactly when S >= T, and the line is then the logger's header, the tag
    of S and the formatted message; when S < T the call returns with the
    world as it was: no call into fmt, no write, no exit and no panic. *)
Theorem write_gate (f : WriteFn) (format : string) (v : list value) (w : World) :
  valid_level w ->
  (severity f >= level w ->
   Print f v w =
     Ret tt (logged 2 (log_line w ("log.go", 93)
                         (tag (severity f) ++ doPrint 0 false v)) w) /\
   Printf f format v w =
     Ret tt (logged 2 (log_line w ("log.go", 87)
                         (tag (severity f) ++ doPrintf format v)) w)) /\
  (severity f < level w ->
   Print f v w = Ret tt w /\ Printf f format v w = Ret tt w) /\
  (emits_a_line w (Print f v w) <-> severity f >= level w) /\
  (emits_a_line w (Printf f format v w) <-> severity f >= level w).
Proof.
  intros _.
  rewrite Print_eq, Printf_eq.
  rewrite (output_eq _ v w (severity_valid f)).
  rewrite (outputf_eq _ format v w (severity_valid f)).
  destruct (severity f >=? level w)%Z eqn:Hgate.
  - rewrite Z.geb_leb in Hgate. apply Z.leb_le in Hgate.
    split; [intros _; split; reflexivity|].
    split; [intros Hlt; lia|].
    split; (split; [intros _; lia | intros _; eexists; apply emits_logged]).
  - rewrite Z.geb_leb in Hgate. apply Z.leb_gt in Hgate.
    split; [intros Hge; lia|].
    split; [intros _; split; reflexivity|].
    split; (split; [|lia]); intros [line Hline];
      now apply not_emits_unchanged in Hline.
Qed.

(** ** The level tag *)

(** C8. A line emitted by Warning or Warningf is the logger's header
    followed at once by "[WARNING] " and then the message; in general the
    line of each severity carries that severity's entry of the constant
    table of the four tags. *)
Theorem level_tag_follows_header (f : WriteFn) (format : string)
    (v : list value) (w : World) :
  severity f >= level w ->
  levelPrefix = ["[DEBUG] "; "[INFO] "; "[WARNING] "; "[ERROR] "] /\
  nth_error levelPrefix (Z.to_nat (severity f)) = Some (tag (severity f)) /\
  tag (severity FWarning) = "[WARNING] " /\
  (exists nl,
     emits w (formatHeader (now w) (std_flags w) "log.go" 93
                ++ tag (severity f) ++ doPrint 0 false v ++ nl) (Print f v w)) /\
  (exists nl,
     emits w (formatHeader (now w) (std_flags w) "log.go" 87
                ++ tag (severity f) ++ doPrintf format v ++ nl) (Printf f format v w)).
Proof.
  intros Hge.
  assert (Hgate : (severity f >=? level w)%Z = true).
  { rewrite Z.geb_leb. apply Z.leb_le. lia. }
  split; [reflexivity|].
  split; [destruct f; reflexivity|].
  split; [reflexivity|].
  rewrite Print_eq, Printf_eq.
  rewrite (output_eq _ v w (severity_valid f)).
  rewrite (outputf_eq _ format v w (severity_valid f)).
  rewrite Hgate. unfold log_line. cbn [fst snd].
  split.
  - exists (line_end (tag (severity f) ++ doPrint 0 false v)).
    rewrite <- (append_assoc3 (tag (severity f))). apply emits_logged.
  - exists (line_end (tag (severity f) ++ doPrintf format v)).
    rewrite <- (append_assoc3 (tag (severity f))). apply emits_logged.
Qed.

(** ** Fatal writes *)

(** C5. Under every valid threshold Fatal and Fatalf hand their message,
    tagged "[ERROR] ", to the logger and then leave the process with exit
    code 1; they exit with code 1 from every world whatsoever and never
    return. *)
Theorem fatal_emits_then_exits (format : string) (v : list value) (w : World) :
  (exists w', Fatal v w = Exit 1 w') /\
  (exists w', Fatalf format v w = Exit 1 w') /\
  (valid_level w ->
   Fatal v w =
     Exit 1 (logged 2 (log_line w ("log.go", 93)
                         ("[ERROR] " ++ doPrint 0 false v)) w) /\
   Fatalf format v w =
     Exit 1 (logged 2 (log_line w ("log.go", 87)
                         ("[ERROR] " ++ doPrintf format v)) w)).
Proof.
  assert (HE : LevelDebug <= LevelError <= LevelError)
    by (unfold LevelDebug, LevelError; lia).
  unfold Fatal, Fatalf, bind.
  rewrite (output_eq LevelError v w HE), (outputf_eq LevelError format v w HE).
  change (tag LevelError) with "[ERROR] ".
  split; [|split].
  - destruct (LevelError >=? level w)%Z; eexists; reflexivity.
  - destruct (LevelError >=? level w)%Z; eexists; reflexivity.
  - intros [_ Hle].
    replace (LevelError >=? level w)%Z with true
      by (symmetry; rewrite Z.geb_leb; apply Z.leb_le; exact Hle).
    split; reflexivity.
Qed.

(** ** Programmatic initialization *)

(** C3. For a level outside 0..3 and any path, InitLevelAndFile returns
    the error "wrong level number" and the world is exactly as before; so
    InitLevelAndFile(5, "") returns that error, and a write made after it
    behaves as the same write made without it. *)
Theorem wrong_level_number_rejected (l : Z) (p : string) (w : World)
    (f : WriteFn) (format : string) (v : list value) :
  ~ (LevelDebug <= l <= LevelError) ->
  InitLevelAndFile l p w = Ret (Some "wrong level number") w /\
  InitLevelAndFile 5 "" w = Ret (Some "wrong level number") w /\
  (InitLevelAndFile 5 "" ;; Print f v) w = Print f v w /\
  (InitLevelAndFile 5 "" ;; Printf f format v) w = Printf f format v w.
Proof.
  intros Hl.
  assert (H5 : InitLevelAndFile 5 "" w = Ret (Some "wrong level number") w)
    by reflexivity.
  split; [now apply InitLevelAndFile_invalid|].
  split; [exact H5|].
  unfold bind. rewrite H5. split; reflexivity.
Qed.

(** C4. For a valid level and a non-empty path whose open fails,
    InitLevelAndFile returns the (non-nil) error of the open, the threshold
    is the requested level, and both the logFile variable and the logger's
    output are the handle that the failed open returned. *)
Theorem failed_open_still_rebinds (l : Z) (p e : string) (w : World) :
  LevelDebug <= l <= LevelError ->
  p <> "" ->
  openErr p = Some e ->
  exists (h : File) (w' : World),
    os_OpenFile p w = Ret (h, Some e) w /\
    InitLevelAndFile l p w = Ret (Some e) w' /\
    level w' = l /\ logFile w' = h /\ std_out w' = h /\
    w' = bound l h w.
Proof.
  intros Hl Hne Hopen.
  exists NilFile, (bound l NilFile w).
  split; [unfold os_OpenFile; now rewrite Hopen|].
  split; [|repeat split].
  rewrite (InitLevelAndFile_valid l p w Hl).
  now rewrite (setFileName_open_fails p e _ Hne Hopen).
Qed.

(** C9. With a valid level and an empty path, either initialization
    leaves the logFile variable as it was and points the logger at it, so
    a destination that was standard error stays standard error, while the
    logger's flags are set to date, time and short file. *)
Theorem empty_path_keeps_destination (l : Z) (w : World) :
  LevelDebug <= l <= LevelError ->
  (exists w',
     InitLevelAndFile l "" w = Ret None w' /\
     level w' = l /\
     logFile w' = logFile w /\ std_out w' = logFile w /\
     std_flags w' = Z.lor LstdFlags Lshortfile /\
     (logFile w = Stderr -> logFile w' = Stderr /\ std_out w' = Stderr)) /\
  (level_of_name (levelString w) = Some l -> filename w = "" ->
   exists w',
     InitFromArgs w = Ret tt w' /\
     level w' = l /\
     logFile w' = logFile w /\ std_out w' = logFile w /\
     std_flags w' = Z.lor LstdFlags Lshortfile /\
     (logFile w = Stderr -> logFile w' = Stderr /\ std_out w' = Stderr)).
Proof.
  intros Hl. split.
  - exists (bound l (logFile w) w).
    rewrite (InitLevelAndFile_valid l "" w Hl).
    repeat (split; [reflexivity|]).
    intros Hs. split; exact Hs.
  - intros Hname Hfile. exists (bound l (logFile w) w).
    rewrite (InitFromArgs_valid w l Hname).
    destruct w as [lv lf ls fn so sf t k ws]. cbn [filename] in Hfile. subst fn.
    unfold bind. cbn [final set_level]. rewrite setFileName_empty.
    repeat (split; [reflexivity|]).
    intros Hs. split; exact Hs.
Qed.

(** ** Argument-driven initialization *)

(** C7. When the level string is none of "DEBUG", "INFO", "WARNING",
    "ERROR", InitFromArgs writes its diagnostic to standard error and
    exits with code 1: it does not return, and the threshold, the logFile
    variable and the logger's output and flags are as before. *)
Theorem unknown_level_name_exits (w : World) :
  levelString w <> "DEBUG" -> levelString w <> "INFO" ->
  levelString w <> "WARNING" -> levelString w <> "ERROR" ->
  exists w',
    InitFromArgs w = Exit 1 w' /\
    written w' =
      (written w ++
       [(Stderr,
         ("log-level can only be DEBUG, INFO, WARNING, ERROR" ++ newline)%string)])%list /\
    level w' = level w /\ logFile w' = logFile w /\
    std_out w' = std_out w /\ std_flags w' = std_flags w.
Proof.
  intros H1 H2 H3 H4.
  rewrite (InitFromArgs_invalid w (level_of_name_none _ H1 H2 H3 H4)).
  eexists. split; [reflexivity|]. repeat split.
Qed.

(** C10. When InitFromArgs runs with a valid level string and a non-empty
    path whose open fails, the binding step returns the open's error and
    InitFromArgs drops it: the call returns normally, nothing is written,
    and the logFile variable and the logger's output are the handle that
    the failed open returned. *)
Theorem InitFromArgs_drops_open_error (w : World) (n : Z) (e : string) :
  level_of_name (levelString w) = Some n ->
  filename w <> "" ->
  openErr (filename w) = Some e ->
  exists (h : File) (w' : World),
    os_OpenFile (filename w) w = Ret (h, Some e) w /\
    setFileName (filename w) (final (set_level n w)) = Ret (Some e) w' /\
    InitFromArgs w = Ret tt w' /\
    written w' = written w /\
    level w' = n /\ logFile w' = h /\ std_out w' = h.
Proof.
  intros Hname Hne Hopen.
  exists NilFile, (bound n NilFile w).
  split; [unfold os_OpenFile; now rewrite Hopen|].
  assert (Hset : setFileName (filename w) (final (set_level n w)) =
                 Ret (Some e) (bound n NilFile w)).
  { change (filename w) with (filename (final (set_level n w))) at 1.
    rewrite (setFileName_open_fails _ e (final (set_level n w))).
    - reflexivity.
    - exact Hne.
    - exact Hopen. }
  split; [exact Hset|].
  split; [|repeat split].
  rewrite (InitFromArgs_valid w n Hname). unfold bind.
  cbn [final set_level filename] in *. now rewrite Hset.
Qed.

(** ** Invariants of client programs *)

Lemma InitLevelAndFile_level (l : Z) (p : string) (w : World) :
  level (final (InitLevelAndFile l p w)) =
    if ((l <=? LevelError) && (l >=? LevelDebug))%Z then l else level w.
Proof.
  destruct ((l <=? LevelError) && (l >=? LevelDebug))%Z eqn:Hc.
  - apply level_check in Hc.
    rewrite (InitLevelAndFile_valid l p w Hc).
    destruct (setFileName_cases p (final (set_level l w))) as [err [f Heq]].
    rewrite Heq. reflexivity.
  - rewrite InitLevelAndFile_invalid; [reflexivity|].
    intros Hl. apply level_check in Hl. congruence.
Qed.

Lemma InitFromArgs_level (w : World) :
  level (final (InitFromArgs w)) =
    match level_of_name (levelString w) with
    | Some n => n
    | None => level w
    end.
Proof.
  destruct (level_of_name (levelString w)) as [n|] eqn:Hname.
  - rewrite (InitFromArgs_valid w n Hname). unfold bind.
    destruct (setFileName_cases (filename w) (final (set_level n w)))
      as [err [f Heq]].
    rewrite Heq. reflexivity.
  - rewrite (InitFromArgs_invalid w Hname). reflexivity.
Qed.

Lemma invoke_valid_level (c : Call) (w : World) :
  valid_level w -> valid_level (final (invoke c w)).
Proof.
  unfold valid_level. intros Hw. destruct c as [ls fn| |l p|f v|f format v|v|format v];
    cbn [invoke].
  - exact Hw.
  - rewrite InitFromArgs_level.
    destruct (level_of_name (levelString w)) as [n|] eqn:Hname; [|exact Hw].
    exact (level_of_name_valid _ _ Hname).
  - unfold bind.
    pose proof (InitLevelAndFile_level l p w) as Hlv.
    destruct (InitLevelAndFile l p w) as [err w'|code w'|w']; cbn [final] in *;
      unfold ret; cbn [final]; rewrite Hlv;
      destruct ((l <=? LevelError) && (l >=? LevelDebug))%Z eqn:Hc;
      try exact Hw; now apply level_check in Hc.
  - destruct (Print_cases f v w) as [Heq|[line Heq]]; rewrite Heq; exact Hw.
  - destruct (Printf_cases f format v w) as [Heq|[line Heq]]; rewrite Heq; exact Hw.
  - destruct (Fatal_exits v w) as [w' [Heq Hlv]]. rewrite Heq.
    cbn [final]. now rewrite Hlv.
  - destruct (Fatalf_exits format v w) as [w' [Heq Hlv]]. rewrite Heq.
    cbn [final]. now rewrite Hlv.
Qed.

Lemma run_valid_level (cs : list Call) (w : World) :
  valid_level w -> valid_level (final (run cs w)).
Proof.
  revert w. induction cs as [|c rest IH]; intros w Hw; [exact Hw|].
  cbn [run]. unfold bind.
  pose proof (invoke_valid_level c w Hw) as Hstep.
  destruct (invoke c w) as [[] w'|code w'|w']; cbn [final] in *.
  - now apply IH.
  - exact Hstep.
  - exact Hstep.
Qed.

Lemma invoke_defaults (c : Call) (w w' : World) :
  is_init c = false -> defaults w -> invoke c w = Ret tt w' -> defaults w'.
Proof.
  intros Hc Hw. destruct c as [ls fn| |l p|f v|f format v|v|format v];
    cbn [is_init invoke] in *; try discriminate Hc; intros Hrun.
  - injection Hrun as <-. exact Hw.
  - destruct (Print_cases f v w) as [Heq|[line Heq]];
      rewrite Heq in Hrun; injection Hrun as <-; exact Hw.
  - destruct (Printf_cases f format v w) as [Heq|[line Heq]];
      rewrite Heq in Hrun; injection Hrun as <-; exact Hw.
  - destruct (Fatal_exits v w) as [w1 [Heq _]]. congruence.
  - destruct (Fatalf_exits format v w) as [w1 [Heq _]]. congruence.
Qed.

Lemma run_defaults (cs : list Call) (w w' : World) :
  forallb (fun c => negb (is_init c)) cs = true ->
  defaults w -> run cs w = Ret tt w' -> defaults w'.
Proof.
  revert w. induction cs as [|c rest IH]; intros w Hcs Hw Hrun.
  - injection Hrun as <-. exact Hw.
  - cbn [forallb] in Hcs. apply andb_true_iff in Hcs as [Hc Hrest].
    apply negb_true_iff in Hc.
    cbn [run] in Hrun. unfold bind in Hrun.
    destruct (invoke c w) as [[] w1|code w1|w1] eqn:Hstep; try discriminate Hrun.
    apply (IH w1 Hrest); [|exact Hrun].
    exact (invoke_defaults c w w1 Hc Hw Hstep).
Qed.

(** C2. The threshold is one of the four severities when the program
    starts and after every client program, whatever it calls; and
    InitLevelAndFile with an integer outside the range leaves the
    threshold as it was, where an integer inside the range becomes the
    threshold. *)
Theorem threshold_always_valid (cs : list Call) (t0 : nat) (l : Z) (p : string) :
  valid_level (init_world t0) /\
  valid_level (final (run cs (init_world t0))) /\
  valid_level (final (run (cs ++ [CInitLevelAndFile l p]) (init_world t0))) /\
  level (final (InitLevelAndFile l p (final (run cs (init_world t0))))) =
    (if ((LevelDebug <=? l) && (l <=? LevelError))%Z then l
     else level (final (run cs (init_world t0)))).
Proof.
  assert (H0 : valid_level (init_world t0))
    by (unfold valid_level, init_world, LevelDebug, LevelInfo, LevelError;
        cbn [level]; lia).
  split; [exact H0|].
  split; [now apply run_valid_level|].
  split; [now apply run_valid_level|].
  rewrite InitLevelAndFile_level.
  rewrite Z.geb_leb. now rewrite andb_comm.
Qed.

(** C6. As long as no initialization call has been made the threshold is
    Info and the logger writes to standard error: Debug and Debugf change
    nothing, and Info, Warning and Error (and their formatted forms) each
    write their record (header, tag, message) on standard error. *)
Theorem default_threshold_is_info (cs : list Call) (t0 : nat) (w : World)
    (format : string) (v : list value) :
  forallb (fun c => negb (is_init c)) cs = true ->
  run cs (init_world t0) = Ret tt w ->
  level w = LevelInfo /\ std_out w = Stderr /\
  Debug v w = Ret tt w /\ Debugf format v w = Ret tt w /\
  (forall f, f <> FDebug ->
     (exists w',
        Print f v w = Ret tt w' /\
        w' = logged 2 (log_line w ("log.go", 93)
                         (tag (severity f) ++ doPrint 0 false v)) w /\
        written w' =
          (written w ++
           [(Stderr, log_line w ("log.go", 93)
                       (tag (severity f) ++ doPrint 0 false v))])%list) /\
     (exists w',
        Printf f format v w = Ret tt w' /\
        w' = logged 2 (log_line w ("log.go", 87)
                         (tag (severity f) ++ doPrintf format v)) w /\
        written w' =
          (written w ++
           [(Stderr, log_line w ("log.go", 87)
                       (tag (severity f) ++ doPrintf format v))])%list)).
Proof.
  intros Hcs Hrun.
  assert (Hd : defaults w).
  { apply (run_defaults cs (init_world t0) w Hcs); [|exact Hrun].
    repeat split. }
  destruct Hd as [Hlv [_ Hout]].
  split; [exact Hlv|]. split; [exact Hout|].
  assert (HD : LevelDebug <= LevelDebug <= LevelError)
    by (unfold LevelDebug, LevelError; lia).
  split; [|split].
  - unfold Debug. rewrite (output_eq _ v w HD), Hlv. reflexivity.
  - unfold Debugf. rewrite (outputf_eq _ format v w HD), Hlv. reflexivity.
  - intros f Hf.
    rewrite Print_eq, Printf_eq.
    rewrite (output_eq _ v w (severity_valid f)).
    rewrite (outputf_eq _ format v w (severity_valid f)).
    rewrite Hlv.
    replace (severity f >=? LevelInfo)%Z with true
      by (destruct f; [congruence|reflexivity|reflexivity|reflexivity]).
    split; eexists; (split; [reflexivity|]); (split; [reflexivity|]);
      unfold logged; cbn [written]; now rewrite Hout.
Qed.

End Facts.

(** ** Further facts: the binding step *)

Section MoreFacts.

Context `{Host}.

Lemma setFileName_binding (name : string) (w : World) :
  setFileName name w =
    Ret (snd (binding name (logFile w)))
        (bound (level w) (fst (binding name (logFile w))) w).
Proof.
  unfold setFileName, binding, os_OpenFile.
  destruct (0 <? String.length name)%nat; [|reflexivity].
  destruct (openErr name); reflexivity.
Qed.

Lemma InitLevelAndFile_binding (l : Z) (p : string) (w : World) :
  LevelDebug <= l <= LevelError ->
  InitLevelAndFile l p w =
    Ret (snd (binding p (logFile w)))
        (bound l (fst (binding p (logFile w))) w).
Proof.
  intros Hl. rewrite (InitLevelAndFile_valid l p w Hl).
  rewrite setFileName_binding. reflexivity.
Qed.

Lemma geb_true (a b : Z) : a >= b -> (a >=? b)%Z = true.
Proof. intros Hab. rewrite Z.geb_leb. apply Z.leb_le. lia. Qed.

Lemma Fatal_cases (v : list value) (w : World) :
  Fatal v w = Exit 1 w \/ exists line, Fatal v w = Exit 1 (logged 2 line w).
Proof.
  assert (HE : LevelDebug <= LevelError <= LevelError) by level_arith.
  unfold Fatal, bind. rewrite (output_eq LevelError v w HE).
  destruct (LevelError >=? level w)%Z; [right; eexists; reflexivity | now left].
Qed.

Lemma Fatalf_cases (format : string) (v : list value) (w : World) :
  Fatalf format v w = Exit 1 w \/
  exists line, Fatalf format v w = Exit 1 (logged 2 line w).
Proof.
  assert (HE : LevelDebug <= LevelError <= LevelError) by level_arith.
  unfold Fatalf, bind. rewrite (outputf_eq LevelError format v w HE).
  destruct (LevelError >=? level w)%Z; [right; eexists; reflexivity | now left].
Qed.

(** X1. InitLevelAndFile reports an error exactly when the level is out of
    range or the path is non-empty and its open fails; it always returns,
    and when it returns nil the threshold is the requested level and the
    logger carries the date, time and short-file flags. *)
Theorem InitLevelAndFile_error_iff (l : Z) (p : string) (w : World) :
  exists (err : error) (w' : World),
    InitLevelAndFile l p w = Ret err w' /\
    (err <> None <->
     ~ (LevelDebug <= l <= LevelError) \/ (p <> "" /\ openErr p <> None)) /\
    (err = None ->
     level w' = l /\ std_out w' = logFile w' /\
     std_flags w' = Z.lor LstdFlags Lshortfile).
Proof.
  destruct (Z_le_dec LevelDebug l) as [Hlo|Hlo];
    [destruct (Z_le_dec l LevelError) as [Hhi|Hhi]|].
  - rewrite (InitLevelAndFile_binding l p w (conj Hlo Hhi)).
    do 2 eexists. split; [reflexivity|]. unfold binding.
    destruct p as [|c rest]; cbn [String.length Nat.ltb Nat.leb fst snd].
    + split; [|intros _; repeat split].
      split; [congruence|]. intros [Hbad|[Hne _]]; [lia|congruence].
    + destruct (openErr (String c rest)) as [e|] eqn:Hopen; cbn [fst snd].
      * split; [|discriminate].
        split; [|discriminate]. intros _. right. split; discriminate.
      * split; [|intros _; repeat split].
        split; [congruence|]. intros [Hbad|[_ Hop]]; [lia|congruence].
  - exists (Some "wrong level number"), w.
    split; [apply InitLevelAndFile_invalid; lia|].
    split; [|discriminate]. split; [intros _; left; lia | discriminate].
  - exists (Some "wrong level number"), w.
    split; [apply InitLevelAndFile_invalid; lia|].
    split; [|discriminate]. split; [intros _; left; lia | discriminate].
Qed.

(** X2. After InitLevelAndFile with a valid level and a non-empty path
    whose open succeeds, the call returns nil, and a write at or above the
    new threshold is issued on the opened file and nowhere else. *)
Theorem successful_open_redirects (l : Z) (p : string) (w : World)
    (f : WriteFn) (format : string) (v : list value) :
  LevelDebug <= l <= LevelError ->
  p <> "" ->
  openErr p = None ->
  severity f >= l ->
  exists (w1 : World),
    InitLevelAndFile l p w = Ret None w1 /\
    logFile w1 = Opened p /\ std_out w1 = Opened p /\
    (exists line,
       (InitLevelAndFile l p ;; Print f v) w
         = Ret tt (logged 2 line w1) /\
       written (logged 2 line w1) = (written w ++ [(Opened p, line)])%list) /\
    (exists line,
       (InitLevelAndFile l p ;; Printf f format v) w
         = Ret tt (logged 2 line w1) /\
       written (logged 2 line w1) = (written w ++ [(Opened p, line)])%list).
Proof.
  intros Hl Hne Hopen Hge.
  exists (bound l (Opened p) w).
  assert (Hinit : InitLevelAndFile l p w = Ret None (bound l (Opened p) w)).
  { rewrite (InitLevelAndFile_valid l p w Hl).
    now rewrite (setFileName_open_ok p _ Hne Hopen). }
  split; [exact Hinit|]. split; [reflexivity|]. split; [reflexivity|].
  unfold bind. rewrite Hinit.
  rewrite Print_eq, Printf_eq.
  rewrite (output_eq _ v _ (severity_valid f)).
  rewrite (outputf_eq _ format v _ (severity_valid f)).
  change (level (bound l (Opened p) w)) with l.
  rewrite (geb_true _ _ Hge).
  split; eexists; split; reflexivity.
Qed.

(** X3. After InitLevelAndFile with a valid level and a non-empty path
    whose open fails, a write at or above the new threshold is issued on
    the nil handle: neither standard error nor the destination in use
    before the call receives it. *)
Theorem failed_open_loses_output (l : Z) (p e : string) (w : World)
    (f : WriteFn) (format : string) (v : list value) :
  LevelDebug <= l <= LevelError ->
  p <> "" ->
  openErr p = Some e ->
  severity f >= l ->
  exists (w1 : World),
    InitLevelAndFile l p w = Ret (Some e) w1 /\
    (exists line,
       (InitLevelAndFile l p ;; Print f v) w
         = Ret tt (logged 2 line w1) /\
       written (logged 2 line w1) = (written w ++ [(NilFile, line)])%list) /\
    (exists line,
       (InitLevelAndFile l p ;; Printf f format v) w
         = Ret tt (logged 2 line w1) /\
       written (logged 2 line w1) = (written w ++ [(NilFile, line)])%list).
Proof.
  intros Hl Hne Hopen Hge.
  exists (bound l NilFile w).
  assert (Hinit : InitLevelAndFile l p w = Ret (Some e) (bound l NilFile w)).
  { rewrite (InitLevelAndFile_valid l p w Hl).
    now rewrite (setFileName_open_fails p e _ Hne Hopen). }
  split; [exact Hinit|].
  unfold bind. rewrite Hinit.
  rewrite Print_eq, Printf_eq.
  rewrite (output_eq _ v _ (severity_valid f)).
  rewrite (outputf_eq _ format v _ (severity_valid f)).
  change (level (bound l NilFile w)) with l.
  rewrite (geb_true _ _ Hge).
  split; eexists; split; reflexivity.
Qed.

(** ** Further facts: the two initializations agree *)

(** X4. With a level string that names a level, InitFromArgs does what
    InitLevelAndFile does for that level and the file-name flag, except
    that the error is dropped. *)
Theorem InitFromArgs_is_InitLevelAndFile (w : World) :
  (levelString w = "DEBUG" ->
   InitFromArgs w = (InitLevelAndFile LevelDebug (filename w) ;; ret tt) w) /\
  (levelString w = "INFO" ->
   InitFromArgs w = (InitLevelAndFile LevelInfo (filename w) ;; ret tt) w) /\
  (levelString w = "WARNING" ->
   InitFromArgs w = (InitLevelAndFile LevelWarning (filename w) ;; ret tt) w) /\
  (levelString w = "ERROR" ->
   InitFromArgs w = (InitLevelAndFile LevelError (filename w) ;; ret tt) w).
Proof.
  assert (Hgen : forall n, level_of_name (levelString w) = Some n ->
            InitFromArgs w = (InitLevelAndFile n (filename w) ;; ret tt) w).
  { intros n Hname. rewrite (InitFromArgs_valid w n Hname).
    unfold bind at 2.
    rewrite (InitLevelAndFile_valid n _ w (level_of_name_valid _ _ Hname)).
    reflexivity. }
  repeat split; intros Hls; apply Hgen; now rewrite Hls.
Qed.

(** X5. InitFromArgs returns to its caller exactly when the level string
    is one of "DEBUG", "INFO", "WARNING", "ERROR" (the comparison is exact,
    so other spellings are refused); otherwise it exits with code 1. It
    never panics. *)
Theorem InitFromArgs_returns_iff (w : World) :
  ((exists w', InitFromArgs w = Ret tt w') <->
   (levelString w = "DEBUG" \/ levelString w = "INFO" \/
    levelString w = "WARNING" \/ levelString w = "ERROR")) /\
  ((exists w', InitFromArgs w = Ret tt w') \/
   (exists w', InitFromArgs w = Exit 1 w')).
Proof.
  destruct (level_of_name (levelString w)) as [n|] eqn:Hname.
  - assert (Hret : exists w', InitFromArgs w = Ret tt w').
    { rewrite (InitFromArgs_valid w n Hname). unfold bind.
      rewrite setFileName_binding. eexists. reflexivity. }
    split; [|now left]. split; [intros _|intros _; exact Hret].
    unfold level_of_name in Hname.
    destruct (levelString w =? "DEBUG") eqn:H1;
      [left; now apply String.eqb_eq|].
    destruct (levelString w =? "INFO") eqn:H2;
      [right; left; now apply String.eqb_eq|].
    destruct (levelString w =? "WARNING") eqn:H3;
      [right; right; left; now apply String.eqb_eq|].
    destruct (levelString w =? "ERROR") eqn:H4;
      [right; right; right; now apply String.eqb_eq|discriminate].
  - pose proof (InitFromArgs_invalid w Hname) as Hexit.
    split; [|right; eexists; exact Hexit].
    split.
    + intros [w' Hret]. rewrite Hexit in Hret. discriminate.
    + intros Hls.
      destruct Hls as [Hls|[Hls|[Hls|Hls]]]; rewrite Hls in Hname;
        discriminate.
Qed.

(** ** Further facts: the output routines outside the table *)

(** X6. For a level outside the table of tags, output and outputf still
    test the threshold first: below it they return with nothing done; at
    or above it indexing the table panics with nothing written and no
    setting changed. outputf panics before any formatting; output has by
    then called fmt.Sprint on its arguments exactly when the compiler
    evaluates that call before the index. *)
Theorem output_outside_table (l : Z) (format : string) (v : list value)
    (w : World) :
  ~ (LevelDebug <= l <= LevelError) ->
  outputf l format v w = (if (l >=? level w)%Z then Panic w else Ret tt w) /\
  output l v w =
    (if (l >=? level w)%Z
     then Panic (if callsFirst then final (fmt_tick w) else w)
     else Ret tt w) /\
  written (final (output l v w)) = written w /\
  settings (final (output l v w)) = settings w.
Proof.
  intros Hl.
  assert (Hidx : forall w0, levelPrefix_at l w0 = Panic w0).
  { intros w0. unfold levelPrefix_at.
    destruct ((0 <=? l) && (l <? Z.of_nat (List.length levelPrefix)))%Z eqn:Hc;
      [|reflexivity].
    apply andb_true_iff in Hc as [Hlo Hhi].
    apply Z.leb_le in Hlo. apply Z.ltb_lt in Hhi. cbn in Hhi.
    exfalso. apply Hl. level_arith. }
  assert (Hout : output l v w =
                 (if (l >=? level w)%Z
                  then Panic (if callsFirst then final (fmt_tick w) else w)
                  else Ret tt w)).
  { unfold output. unfold bind at 1. unfold get at 1.
    destruct (l >=? level w)%Z; [|reflexivity].
    destruct callsFirst.
    - unfold fmt_Sprint. unfold bind at 1 2. unfold fmt_tick at 1.
      unfold ret at 1. unfold bind at 1. rewrite Hidx. reflexivity.
    - unfold bind at 1. rewrite Hidx. reflexivity. }
  split.
  - unfold outputf. unfold bind at 1. unfold get at 1.
    destruct (l >=? level w)%Z; [|reflexivity].
    unfold bind at 1. rewrite Hidx. reflexivity.
  - split; [exact Hout|]. rewrite Hout.
    destruct (l >=? level w)%Z; [|split; reflexivity].
    destruct callsFirst; split; reflexivity.
Qed.

(** ** Further facts: client programs *)

Lemma invoke_outcome (c : Call) (w : World) :
  (exists w', invoke c w = Ret tt w') \/
  (may_exit c = true /\ exists w', invoke c w = Exit 1 w').
Proof.
  destruct c as [ls fn| |l p|f v|f format v|v|format v]; cbn [invoke may_exit].
  - left. eexists. reflexivity.
  - destruct (level_of_name (levelString w)) as [n|] eqn:Hname.
    + left. rewrite (InitFromArgs_valid w n Hname). unfold bind.
      rewrite setFileName_binding. eexists. reflexivity.
    + right. split; [reflexivity|].
      rewrite (InitFromArgs_invalid w Hname). eexists. reflexivity.
  - left. unfold bind.
    destruct (Z_le_dec LevelDebug l) as [Hlo|Hlo];
      [destruct (Z_le_dec l LevelError) as [Hhi|Hhi]|].
    + rewrite (InitLevelAndFile_binding l p w (conj Hlo Hhi)).
      eexists. reflexivity.
    + rewrite InitLevelAndFile_invalid by lia. eexists. reflexivity.
    + rewrite InitLevelAndFile_invalid by lia. eexists. reflexivity.
  - left. destruct (Print_cases f v w) as [Heq|[line Heq]]; rewrite Heq;
      eexists; reflexivity.
  - left. destruct (Printf_cases f format v w) as [Heq|[line Heq]]; rewrite Heq;
      eexists; reflexivity.
  - right. split; [reflexivity|].
    destruct (Fatal_cases v w) as [Heq|[line Heq]]; rewrite Heq;
      eexists; reflexivity.
  - right. split; [reflexivity|].
    destruct (Fatalf_cases format v w) as [Heq|[line Heq]]; rewrite Heq;
      eexists; reflexivity.
Qed.

(** X7. Whatever exported functions a client calls, in whatever order and
    from whatever state, the package never panics and never exits with a
    code other than 1: the calls either all return or end in an exit with
    code 1. *)
Theorem run_returns_or_exits_1 (cs : list Call) (w : World) :
  forallb is_exported cs = true ->
  (exists w', run cs w = Ret tt w') \/ (exists w', run cs w = Exit 1 w').
Proof.
  revert w. induction cs as [|c rest IH]; intros w Hcs.
  - left. exists w. reflexivity.
  - cbn [forallb] in Hcs. apply andb_true_iff in Hcs as [_ Hrest].
    cbn [run]. unfold bind.
    destruct (invoke_outcome c w) as [[w1 Heq]|[_ [w1 Heq]]]; rewrite Heq.
    + now apply IH.
    + right. exists w1. reflexivity.
Qed.

(** X8. A program that calls neither InitFromArgs nor a fatal write
    always returns: InitLevelAndFile and the eight write functions never
    end the process. *)
Theorem only_fatal_and_InitFromArgs_exit (cs : list Call) (w : World) :
  forallb (fun c => negb (may_exit c)) cs = true ->
  exists w', run cs w = Ret tt w'.
Proof.
  revert w. induction cs as [|c rest IH]; intros w Hcs.
  - exists w. reflexivity.
  - cbn [forallb] in Hcs. apply andb_true_iff in Hcs as [Hc Hrest].
    apply negb_true_iff in Hc.
    cbn [run]. unfold bind.
    destruct (invoke_outcome c w) as [[w1 Heq]|[Hex _]].
    + rewrite Heq. now apply IH.
    + congruence.
Qed.

Lemma run_app (cs1 cs2 : list Call) (w : World) :
  run (cs1 ++ cs2) w = (run cs1 ;; run cs2) w.
Proof.
  revert w. induction cs1 as [|c rest IH]; intros w.
  - reflexivity.
  - cbn [app run]. unfold bind in *.
    destruct (invoke c w) as [[] w1|code w1|w1]; [apply IH | reflexivity..].
Qed.

(** X9. Nothing a client calls after a fatal write has any effect: the
    program with further calls behind Fatal or Fatalf ends exactly as the
    program cut after the fatal write. *)
Theorem nothing_runs_after_fatal (cs1 cs2 : list Call) (format : string)
    (v : list value) (w : World) :
  run (cs1 ++ CFatal v :: cs2) w = run (cs1 ++ [CFatal v]) w /\
  run (cs1 ++ CFatalf format v :: cs2) w = run (cs1 ++ [CFatalf format v]) w.
Proof.
  rewrite !run_app. unfold bind.
  destruct (run cs1 w) as [[] w1|code w1|w1]; [|split; reflexivity..].
  cbn [run invoke]. unfold bind.
  destruct (Fatal_cases v w1) as [Hv|[line Hv]];
    destruct (Fatalf_cases format v w1) as [Hf|[line' Hf]];
    rewrite Hv, Hf; split; reflexivity.
Qed.

Lemma consistent_bound (l : Z) (name : string) (w : World) :
  consistent w -> consistent (bound l (fst (binding name (logFile w))) w).
Proof.
  intros [_ [_ Hfile]]. unfold consistent, bound.
  cbn [std_out logFile std_flags].
  split; [reflexivity|]. split; [now right|].
  unfold binding. destruct name as [|c rest]; cbn [String.length Nat.ltb Nat.leb fst].
  - exact Hfile.
  - destruct (openErr (String c rest)) eqn:Hopen; cbn [fst]; [exact I|].
    split; [discriminate | exact Hopen].
Qed.

Lemma invoke_consistent (c : Call) (w : World) :
  consistent w -> consistent (final (invoke c w)).
Proof.
  intros Hw. destruct c as [ls fn| |l p|f v|f format v|v|format v];
    cbn [invoke].
  - exact Hw.
  - destruct (level_of_name (levelString w)) as [n|] eqn:Hname.
    + rewrite (InitFromArgs_valid w n Hname). unfold bind.
      rewrite setFileName_binding. cbn [final ret].
      apply (consistent_bound n (filename w) (final (set_level n w))).
      exact Hw.
    + rewrite (InitFromArgs_invalid w Hname). exact Hw.
  - unfold bind.
    destruct (Z_le_dec LevelDebug l) as [Hlo|Hlo];
      [destruct (Z_le_dec l LevelError) as [Hhi|Hhi]|].
    + rewrite (InitLevelAndFile_binding l p w (conj Hlo Hhi)).
      cbn [final ret]. now apply consistent_bound.
    + rewrite InitLevelAndFile_invalid by lia. exact Hw.
    + rewrite InitLevelAndFile_invalid by lia. exact Hw.
  - destruct (Print_cases f v w) as [Heq|[line Heq]]; rewrite Heq; exact Hw.
  - destruct (Printf_cases f format v w) as [Heq|[line Heq]]; rewrite Heq;
      exact Hw.
  - destruct (Fatal_cases v w) as [Heq|[line Heq]]; rewrite Heq; exact Hw.
  - destruct (Fatalf_cases format v w) as [Heq|[line Heq]]; rewrite Heq;
      exact Hw.
Qed.

(** X10. After every client program the standard logger writes to the
    file that logFile holds, its flags are the library's default or date,
    time and short file, and logFile is standard error, the nil handle of
    a failed open, or a non-empty path whose open succeeded. *)
Theorem logger_follows_logFile (cs : list Call) (t0 : nat) :
  consistent (final (run cs (init_world t0))).
Proof.
  assert (Hgen : forall w, consistent w -> consistent (final (run cs w))).
  { induction cs as [|c rest IH]; intros w Hw; [exact Hw|].
    cbn [run]. unfold bind.
    pose proof (invoke_consistent c w Hw) as Hstep.
    destruct (invoke c w) as [[] w1|code w1|w1]; cbn [final] in *.
    - now apply IH.
    - exact Hstep.
    - exact Hstep. }
  apply Hgen. unfold consistent, init_world. cbn [std_out logFile std_flags].
  split; [reflexivity|]. split; [now left | exact I].
Qed.

Lemma invoke_write_frame (c : Call) (w : World) :
  is_write c = true ->
  settings (final (invoke c w)) = settings w /\
  (written (final (invoke c w)) = written w \/
   exists line,
     written (final (invoke c w)) = (written w ++ [(std_out w, line)])%list).
Proof.
  destruct c as [ls fn| |l p|f v|f format v|v|format v];
    cbn [is_write invoke]; try discriminate; intros _.
  - destruct (Print_cases f v w) as [Heq|[line Heq]]; rewrite Heq;
      (split; [reflexivity|]); [now left | right; now exists line].
  - destruct (Printf_cases f format v w) as [Heq|[line Heq]]; rewrite Heq;
      (split; [reflexivity|]); [now left | right; now exists line].
  - destruct (Fatal_cases v w) as [Heq|[line Heq]]; rewrite Heq;
      (split; [reflexivity|]); [now left | right; now exists line].
  - destruct (Fatalf_cases format v w) as [Heq|[line Heq]]; rewrite Heq;
      (split; [reflexivity|]); [now left | right; now exists line].
Qed.

(** X11. A program made only of logging calls changes no setting
    (threshold, logFile, the two flag variables, the logger's output and
    flags), and all it writes, at most one record per call, goes to the
    one file the logger had at the start. *)
Theorem writes_change_no_setting (cs : list Call) (w : World) :
  forallb is_write cs = true ->
  settings (final (run cs w)) = settings w /\
  exists lines,
    written (final (run cs w))
      = (written w ++ map (fun line => (std_out w, line)) lines)%list /\
    (List.length lines <= List.length cs)%nat.
Proof.
  revert w. induction cs as [|c rest IH]; intros w Hcs.
  - split; [reflexivity|]. exists []. split; [|reflexivity].
    cbn [run ret final map]. now rewrite app_nil_r.
  - cbn [forallb] in Hcs. apply andb_true_iff in Hcs as [Hc Hrest].
    destruct (invoke_write_frame c w Hc) as [Hset Hwr].
    cbn [run]. unfold bind.
    destruct (invoke c w) as [[] w1|code w1|w1] eqn:Hstep; cbn [final] in *.
    + destruct (IH w1 Hrest) as [Hset' [lines [Hlines Hlen]]].
      split; [congruence|].
      assert (Hout : std_out w1 = std_out w).
      { unfold settings in Hset. congruence. }
      rewrite Hout in Hlines.
      destruct Hwr as [Hsame|[line Hone]].
      * exists lines. split; [congruence | cbn [List.length]; lia].
      * exists (line :: lines). split; [|cbn [List.length]; lia].
        rewrite Hlines, Hone. cbn [map]. now rewrite <- app_assoc.
    + split; [exact Hset|].
      destruct Hwr as [Hsame|[line Hone]].
      * exists []. split; [|cbn [List.length]; lia].
        cbn [map]. now rewrite app_nil_r.
      * exists [line]. split; [exact Hone | cbn [List.length]; lia].
    + split; [exact Hset|].
      destruct Hwr as [Hsame|[line Hone]].
      * exists []. split; [|cbn [List.length]; lia].
        cbn [map]. now rewrite app_nil_r.
      * exists [line]. split; [exact Hone | cbn [List.length]; lia].
Qed.

(** ** Further facts: the end of a record *)

Lemma ends_with_newline_app (a b : string) :
  b <> "" -> ends_with_newline (a ++ b) = ends_with_newline b.
Proof.
  intros Hb. induction a as [|c a IH]; [reflexivity|].
  cbn [append ends_with_newline].
  destruct (a ++ b) as [|c' rest] eqn:Hab.
  - destruct a; cbn in Hab; [contradiction | discriminate].
  - exact IH.
Qed.

Lemma terminated (s : string) : ends_with_newline (s ++ line_end s) = true.
Proof.
  unfold line_end. destruct (ends_with_newline s) eqn:Hs.
  - now rewrite append_empty_r.
  - rewrite ends_with_newline_app; [reflexivity | discriminate].
Qed.

Lemma log_line_terminated (w : World) (site : string * Z) (s : string) :
  ends_with_newline (log_line w site s) = true.
Proof.
  unfold log_line.
  pose proof (terminated s) as Hs.
  rewrite ends_with_newline_app; [exact Hs|].
  intros Hempty. rewrite Hempty in Hs. discriminate.
Qed.

Lemma line_end_tag (f : WriteFn) (body : string) :
  line_end (tag (severity f) ++ body) = line_end body.
Proof.
  unfold line_end. destruct body as [|c rest].
  - rewrite append_empty_r. destruct f; reflexivity.
  - rewrite ends_with_newline_app; [reflexivity | discriminate].
Qed.

(** X12. The record of an emitted write always ends with a newline, and
    the logger adds one only when the message does not already end with
    one: the record is header, tag, message, then a newline unless the
    message (if not empty) ends with a newline. *)
Theorem record_ends_with_newline (f : WriteFn) (format : string)
    (v : list value) (w : World) :
  severity f >= level w ->
  let hdr site := formatHeader (now w) (std_flags w) "log.go" site in
  let body := doPrint 0 false v in
  let bodyf := doPrintf format v in
  emits w (hdr 93 ++ tag (severity f) ++ body ++ line_end body) (Print f v w) /\
  ends_with_newline (hdr 93 ++ tag (severity f) ++ body ++ line_end body)
    = true /\
  emits w (hdr 87 ++ tag (severity f) ++ bodyf ++ line_end bodyf)
    (Printf f format v w) /\
  ends_with_newline (hdr 87 ++ tag (severity f) ++ bodyf ++ line_end bodyf)
    = true.
Proof.
  intros Hge hdr body bodyf.
  assert (Hp : hdr 93 ++ tag (severity f) ++ body ++ line_end body
               = log_line w ("log.go", 93) (tag (severity f) ++ body)).
  { unfold log_line. cbn [fst snd].
    now rewrite line_end_tag, append_assoc3. }
  assert (Hpf : hdr 87 ++ tag (severity f) ++ bodyf ++ line_end bodyf
                = log_line w ("log.go", 87) (tag (severity f) ++ bodyf)).
  { unfold log_line. cbn [fst snd].
    now rewrite line_end_tag, append_assoc3. }
  rewrite Hp, Hpf, !log_line_terminated.
  rewrite Print_eq, Printf_eq.
  rewrite (output_eq _ v w (severity_valid f)).
  rewrite (outputf_eq _ format v w (severity_valid f)).
  rewrite (geb_true _ _ Hge).
  repeat split; apply emits_logged.
Qed.

(** ** Further facts: the threshold set by an initialization *)


End MoreFacts.

(** ** The statements at work on the concrete host *)

#[local] Existing Instance demo_host.

(** C1 at the initial world: Debug is below the threshold Info, Warning
    is above it. *)
Lemma write_gate_witness :
  valid_level (init_world 0) /\
  severity FDebug < level (init_world 0) /\
  Print FDebug [VString "probe"] (init_world 0) = Ret tt (init_world 0) /\
  severity FWarning >= level (init_world 0) /\
  Print FWarning [VString "probe"] (init_world 0) =
    Ret tt (logged 2 (log_line (init_world 0) ("log.go", 93)
                        ("[WARNING] " ++ "probe")) (init_world 0)).
Proof.
  assert (Hv : valid_level (init_world 0)).
  { level_arith. }
  assert (Hlt : severity FDebug < level (init_world 0)).
  { unfold severity. level_arith. }
  assert (Hge : severity FWarning >= level (init_world 0)).
  { unfold severity. level_arith. }
  split; [exact Hv|]. split; [exact Hlt|].
  split.
  - exact (proj1 (proj1 (proj2 (write_gate FDebug "" [VString "probe"]
                                  (init_world 0) Hv)) Hlt)).
  - split; [exact Hge|].
    exact (proj1 (proj1 (write_gate FWarning "" [VString "probe"]
                           (init_world 0) Hv) Hge)).
Defined.

(** C3 at level 7 and at level -1. *)
Lemma wrong_level_number_rejected_witness :
  ~ (LevelDebug <= 7 <= LevelError) /\
  InitLevelAndFile 7 "app.log" (init_world 0)
    = Ret (Some "wrong level number") (init_world 0) /\
  InitLevelAndFile 5 "" (init_world 0)
    = Ret (Some "wrong level number") (init_world 0).
Proof.
  assert (H7 : ~ (LevelDebug <= 7 <= LevelError)).
  { level_arith. }
  split; [exact H7|].
  pose proof (wrong_level_number_rejected 7 "app.log" (init_world 0)
                FInfo "" [VOther 1] H7) as [Ha [Hb _]].
  split; [exact Ha | exact Hb].
Defined.

(** C4 at a path that the demo file system does not have. *)
Lemma failed_open_still_rebinds_witness :
  (LevelDebug <= 3 <= LevelError) /\
  "missing.log" <> "" /\
  openErr "missing.log" = Some "open: no such file or directory" /\
  exists (h : File) (w' : World),
    os_OpenFile "missing.log" (init_world 0)
      = Ret (h, Some "open: no such file or directory") (init_world 0) /\
    InitLevelAndFile 3 "missing.log" (init_world 0)
      = Ret (Some "open: no such file or directory") w' /\
    level w' = 3 /\ logFile w' = h /\ std_out w' = h /\
    w' = bound 3 h (init_world 0).
Proof.
  assert (Hl : LevelDebug <= 3 <= LevelError).
  { level_arith. }
  assert (Hne : "missing.log" <> "") by discriminate.
  assert (Hopen : openErr "missing.log" = Some "open: no such file or directory")
    by reflexivity.
  split; [exact Hl|]. split; [exact Hne|]. split; [exact Hopen|].
  exact (failed_open_still_rebinds 3 "missing.log" _ (init_world 0) Hl Hne Hopen).
Defined.

(** C5 at the initial world. *)
Lemma fatal_emits_then_exits_witness :
  valid_level (init_world 0) /\
  Fatal [VString "out of memory"] (init_world 0) =
    Exit 1 (logged 2 (log_line (init_world 0) ("log.go", 93)
                        ("[ERROR] " ++ doPrint 0 false [VString "out of memory"]))
              (init_world 0)) /\
  Fatalf "code %d" [VString "out of memory"] (init_world 0) =
    Exit 1 (logged 2 (log_line (init_world 0) ("log.go", 87)
                        ("[ERROR] " ++ doPrintf "code %d" [VString "out of memory"]))
              (init_world 0)).
Proof.
  assert (Hv : valid_level (init_world 0)).
  { level_arith. }
  split; [exact Hv|].
  exact (proj2 (proj2 (fatal_emits_then_exits "code %d" [VString "out of memory"]
                         (init_world 0))) Hv).
Defined.

(** C6 after the flags were parsed and one Info line was logged, with no
    initialization call. *)
Lemma default_threshold_is_info_witness :
  forallb (fun c => negb (is_init c)) demo_calls = true /\
  run demo_calls (init_world 0) = Ret tt demo_calls_world /\
  level demo_calls_world = LevelInfo /\ std_out demo_calls_world = Stderr /\
  Debug [VString "probe"] demo_calls_world = Ret tt demo_calls_world.
Proof.
  assert (Hcs : forallb (fun c => negb (is_init c)) demo_calls = true)
    by reflexivity.
  assert (Hrun : run demo_calls (init_world 0) = Ret tt demo_calls_world)
    by reflexivity.
  split; [exact Hcs|]. split; [exact Hrun|].
  pose proof (default_threshold_is_info demo_calls 0 demo_calls_world ""
                [VString "probe"] Hcs Hrun)
    as [Hlv [Hout [Hdebug _]]].
  split; [exact Hlv|]. split; [exact Hout | exact Hdebug].
Defined.

(** C7 at the level string "BOGUS". *)
Lemma unknown_level_name_exits_witness :
  (levelString demo_bogus_world <> "DEBUG" /\
   levelString demo_bogus_world <> "INFO" /\
   levelString demo_bogus_world <> "WARNING" /\
   levelString demo_bogus_world <> "ERROR") /\
  exists w',
    InitFromArgs demo_bogus_world = Exit 1 w' /\
    written w' =
      (written demo_bogus_world ++
       [(Stderr,
         ("log-level can only be DEBUG, INFO, WARNING, ERROR" ++ newline)%string)])%list /\
    level w' = level demo_bogus_world /\
    logFile w' = logFile demo_bogus_world /\
    std_out w' = std_out demo_bogus_world /\
    std_flags w' = std_flags demo_bogus_world.
Proof.
  assert (H1 : levelString demo_bogus_world <> "DEBUG") by discriminate.
  assert (H2 : levelString demo_bogus_world <> "INFO") by discriminate.
  assert (H3 : levelString demo_bogus_world <> "WARNING") by discriminate.
  assert (H4 : levelString demo_bogus_world <> "ERROR") by discriminate.
  split; [repeat split; assumption|].
  exact (unknown_level_name_exits demo_bogus_world H1 H2 H3 H4).
Defined.

(** C8 for a Warning logged at the initial threshold. *)
Lemma level_tag_follows_header_witness :
  severity FWarning >= level (init_world 0) /\
  (exists nl,
     emits (init_world 0)
       (formatHeader 0%nat LstdFlags "log.go" 93
          ++ "[WARNING] " ++ "disk full" ++ nl)
       (Warning [VString "disk full"] (init_world 0))).
Proof.
  assert (Hge : severity FWarning >= level (init_world 0)).
  { unfold severity. level_arith. }
  split; [exact Hge|].
  pose proof (level_tag_follows_header FWarning "" [VString "disk full"]
                (init_world 0) Hge) as [_ [_ [_ [Hline _]]]].
  exact Hline.
Defined.

(** C9 from the initial world, whose level string is "INFO" and whose
    file name is empty. *)
Lemma empty_path_keeps_destination_witness :
  (LevelDebug <= 1 <= LevelError) /\
  level_of_name (levelString (init_world 0)) = Some 1 /\
  filename (init_world 0) = "" /\
  (exists w',
     InitLevelAndFile 1 "" (init_world 0) = Ret None w' /\
     logFile w' = Stderr /\ std_out w' = Stderr /\ std_flags w' = 19) /\
  (exists w',
     InitFromArgs (init_world 0) = Ret tt w' /\
     logFile w' = Stderr /\ std_out w' = Stderr /\ std_flags w' = 19).
Proof.
  assert (Hl : LevelDebug <= 1 <= LevelError) by level_arith.
  assert (Hname : level_of_name (levelString (init_world 0)) = Some 1)
    by reflexivity.
  assert (Hfile : filename (init_world 0) = "") by reflexivity.
  split; [exact Hl|]. split; [exact Hname|]. split; [exact Hfile|].
  destruct (empty_path_keeps_destination 1 (init_world 0) Hl) as [Ha Hb].
  split.
  - destruct Ha as [w' [Heq [_ [_ [_ [Hfl Hs]]]]]].
    exists w'. destruct (Hs eq_refl) as [Hs1 Hs2].
    repeat split; assumption.
  - destruct (Hb Hname Hfile) as [w' [Heq [_ [_ [_ [Hfl Hs]]]]]].
    exists w'. destruct (Hs eq_refl) as [Hs1 Hs2].
    repeat split; assumption.
Defined.

(** C10 with the flags -log-level ERROR -log-file missing.log. *)
Lemma InitFromArgs_drops_open_error_witness :
  level_of_name (levelString demo_missing_world) = Some 3 /\
  filename demo_missing_world <> "" /\
  openErr (filename demo_missing_world)
    = Some "open: no such file or directory" /\
  exists (h : File) (w' : World),
    os_OpenFile (filename demo_missing_world) demo_missing_world
      = Ret (h, Some "open: no such file or directory") demo_missing_world /\
    setFileName (filename demo_missing_world)
      (final (set_level 3 demo_missing_world))
      = Ret (Some "open: no such file or directory") w' /\
    InitFromArgs demo_missing_world = Ret tt w' /\
    written w' = written demo_missing_world /\
    level w' = 3 /\ logFile w' = h /\ std_out w' = h.
Proof.
  assert (Hname : level_of_name (levelString demo_missing_world) = Some 3)
    by reflexivity.
  assert (Hne : filename demo_missing_world <> "") by discriminate.
  assert (Hopen : openErr (filename demo_missing_world)
                  = Some "open: no such file or directory")
    by reflexivity.
  split; [exact Hname|]. split; [exact Hne|]. split; [exact Hopen|].
  exact (InitFromArgs_drops_open_error demo_missing_world 3 _ Hname Hne Hopen).
Defined.

(** ** Running the model *)

(** InitLevelAndFile(LevelError, "") raises the threshold to Error: a
    Warning is then suppressed and an Error is written to standard error. *)
Example init_error_then_log :
  run [CInitLevelAndFile LevelError "";
       CPrint FWarning [VString "low disk"];
       CPrint FError [VString "disk "; VOther 3; VOther 4]]
      (init_world 0)
  = Ret tt (mkWorld LevelError Stderr "INFO" "" Stderr 19 1 2
              [(Stderr,
                ("2009/11/10 23:00:00 log.go: [ERROR] disk <value> <value>"
                   ++ newline)%string)]).
Proof. reflexivity. Qed.

(** A fatal write ends the client program: the calls after it do not run. *)
Example fatal_cuts_the_program_short :
  run [CFatal [VString "giving up"]; CPrint FError [VString "unreachable"]]
      (init_world 0)
  = Exit 1 (mkWorld LevelInfo Stderr "INFO" "" Stderr 3 1 2
              [(Stderr,
                ("2009/11/10 23:00:00 log.go: [ERROR] giving up"
                   ++ newline)%string)]).
Proof. reflexivity. Qed.

(** ** The further statements at work on the concrete host *)

(** X1 at a valid level and the path that the demo file system has. *)
Lemma InitLevelAndFile_error_iff_witness :
  exists w',
    InitLevelAndFile 2 "app.log" (init_world 0) = Ret None w' /\
    level w' = 2 /\ std_out w' = logFile w' /\ std_flags w' = 19.
Proof.
  destruct (InitLevelAndFile_error_iff 2 "app.log" (init_world 0))
    as [err [w' [Heq [_ Hnil]]]].
  assert (Hrun : InitLevelAndFile 2 "app.log" (init_world 0)
                 = Ret None (bound 2 (Opened "app.log") (init_world 0)))
    by reflexivity.
  rewrite Hrun in Heq. injection Heq as <- <-.
  exists (bound 2 (Opened "app.log") (init_world 0)).
  split; [reflexivity | exact (Hnil eq_refl)].
Defined.

(** X2 at the path that the demo file system has. *)
Lemma successful_open_redirects_witness :
  (LevelDebug <= 2 <= LevelError) /\
  "app.log" <> "" /\
  openErr "app.log" = None /\
  severity FError >= 2 /\
  exists w1,
    InitLevelAndFile 2 "app.log" (init_world 0) = Ret None w1 /\
    logFile w1 = Opened "app.log" /\ std_out w1 = Opened "app.log".
Proof.
  assert (Hl : LevelDebug <= 2 <= LevelError) by level_arith.
  assert (Hne : "app.log" <> "") by discriminate.
  assert (Hopen : openErr "app.log" = None) by reflexivity.
  assert (Hge : severity FError >= 2) by (unfold severity; level_arith).
  split; [exact Hl|]. split; [exact Hne|]. split; [exact Hopen|].
  split; [exact Hge|].
  destruct (successful_open_redirects 2 "app.log" (init_world 0) FError
              "%s" [VString "up"] Hl Hne Hopen Hge)
    as [w1 [Hinit [Hfile [Hout _]]]].
  exists w1. split; [exact Hinit|]. split; [exact Hfile | exact Hout].
Defined.

(** X3 at a path that the demo file system does not have. *)
Lemma failed_open_loses_output_witness :
  (LevelDebug <= 0 <= LevelError) /\
  "missing.log" <> "" /\
  openErr "missing.log" = Some "open: no such file or directory" /\
  severity FInfo >= 0 /\
  exists w1 line,
    (InitLevelAndFile 0 "missing.log" ;; Print FInfo [VString "up"])
      (init_world 0) = Ret tt (logged 2 line w1) /\
    written (logged 2 line w1)
      = (written (init_world 0) ++ [(NilFile, line)])%list.
Proof.
  assert (Hl : LevelDebug <= 0 <= LevelError) by level_arith.
  assert (Hne : "missing.log" <> "") by discriminate.
  assert (Hopen : openErr "missing.log" = Some "open: no such file or directory")
    by reflexivity.
  assert (Hge : severity FInfo >= 0) by (unfold severity; level_arith).
  split; [exact Hl|]. split; [exact Hne|]. split; [exact Hopen|].
  split; [exact Hge|].
  destruct (failed_open_loses_output 0 "missing.log" _ (init_world 0) FInfo
              "" [VString "up"] Hl Hne Hopen Hge)
    as [w1 [_ [[line Hline] _]]].
  exists w1, line. exact Hline.
Defined.

(** X4 with the flags -log-level ERROR -log-file missing.log. *)
Lemma InitFromArgs_is_InitLevelAndFile_witness :
  levelString demo_missing_world = "ERROR" /\
  InitFromArgs demo_missing_world =
    (InitLevelAndFile LevelError (filename demo_missing_world) ;; ret tt)
      demo_missing_world.
Proof.
  assert (Hls : levelString demo_missing_world = "ERROR") by reflexivity.
  split; [exact Hls|].
  exact (proj2 (proj2 (proj2
           (InitFromArgs_is_InitLevelAndFile demo_missing_world))) Hls).
Defined.

(** X5 at the level string "BOGUS": the call does not return. *)
Lemma InitFromArgs_returns_iff_witness :
  ~ (exists w', InitFromArgs demo_bogus_world = Ret tt w').
Proof.
  intros Hret.
  apply (proj1 (InitFromArgs_returns_iff demo_bogus_world)) in Hret.
  destruct Hret as [Hls|[Hls|[Hls|Hls]]]; discriminate Hls.
Defined.

(** X6 at level 4, one past the table, and at level -1, under the
    initial threshold, on a host that evaluates calls first. *)
Lemma output_outside_table_witness :
  ~ (LevelDebug <= 4 <= LevelError) /\
  ~ (LevelDebug <= -1 <= LevelError) /\
  outputf 4 "%d" [VOther 1] (init_world 0) = Panic (init_world 0) /\
  output 4 [VOther 1] (init_world 0) = Panic (final (fmt_tick (init_world 0))) /\
  output (-1) [VOther 1] (init_world 0) = Ret tt (init_world 0).
Proof.
  assert (H4 : ~ (LevelDebug <= 4 <= LevelError)) by level_arith.
  assert (Hm : ~ (LevelDebug <= -1 <= LevelError)) by level_arith.
  split; [exact H4|]. split; [exact Hm|].
  split; [|split].
  - exact (proj1 (output_outside_table 4 "%d" [VOther 1] (init_world 0) H4)).
  - exact (proj1 (proj2 (output_outside_table 4 "" [VOther 1]
                           (init_world 0) H4))).
  - exact (proj1 (proj2 (output_outside_table (-1) "" [VOther 1]
                           (init_world 0) Hm))).
Defined.

(** X7 for a client that sets the level, logs and then logs fatally. *)
Lemma run_returns_or_exits_1_witness :
  forallb is_exported
    [CInitLevelAndFile 9 "app.log"; CPrint FError [VOther 2];
     CFatal [VString "bye"]] = true /\
  ((exists w', run [CInitLevelAndFile 9 "app.log"; CPrint FError [VOther 2];
                    CFatal [VString "bye"]] (init_world 0) = Ret tt w') \/
   (exists w', run [CInitLevelAndFile 9 "app.log"; CPrint FError [VOther 2];
                    CFatal [VString "bye"]] (init_world 0) = Exit 1 w')).
Proof.
  assert (Hcs : forallb is_exported
                  [CInitLevelAndFile 9 "app.log"; CPrint FError [VOther 2];
                   CFatal [VString "bye"]] = true) by reflexivity.
  split; [exact Hcs|].
  exact (run_returns_or_exits_1 _ (init_world 0) Hcs).
Defined.

(** X8 for the demo client, which neither initializes from the flags nor
    logs fatally. *)
Lemma only_fatal_and_InitFromArgs_exit_witness :
  forallb (fun c => negb (may_exit c)) demo_calls = true /\
  exists w', run demo_calls (init_world 0) = Ret tt w'.
Proof.
  assert (Hcs : forallb (fun c => negb (may_exit c)) demo_calls = true)
    by reflexivity.
  split; [exact Hcs|].
  exact (only_fatal_and_InitFromArgs_exit demo_calls (init_world 0) Hcs).
Defined.

(** X11 for a client that logs twice and then fatally. *)
Lemma writes_change_no_setting_witness :
  forallb is_write
    [CPrint FDebug [VOther 1]; CPrintf FError "%d" [VOther 2];
     CFatal [VString "bye"]] = true /\
  settings (final (run [CPrint FDebug [VOther 1];
                        CPrintf FError "%d" [VOther 2];
                        CFatal [VString "bye"]] (init_world 0)))
    = settings (init_world 0).
Proof.
  assert (Hcs : forallb is_write
                  [CPrint FDebug [VOther 1]; CPrintf FError "%d" [VOther 2];
                   CFatal [VString "bye"]] = true) by reflexivity.
  split; [exact Hcs|].
  exact (proj1 (writes_change_no_setting _ (init_world 0) Hcs)).
Defined.

(** X12 for a Warning whose message already ends with a newline. *)
Lemma record_ends_with_newline_witness :
  severity FWarning >= level (init_world 0) /\
  emits (init_world 0)
    (formatHeader 0%nat LstdFlags "log.go" 93 ++ "[WARNING] " ++ newline)
    (Warning [VString newline] (init_world 0)).
Proof.
  assert (Hge : severity FWarning >= level (init_world 0)).
  { unfold severity. level_arith. }
  split; [exact Hge|].
  exact (proj1 (record_ends_with_newline FWarning "" [VString newline]
                  (init_world 0) Hge)).
Defined.

